(** * YandexGPT configuration manager (bot/yagpt_service.py)

    A shallow embedding of [YandexGPTConfigManagerBase]: four optional string
    fields and three read-only properties that validate and format them.

    - [Optional[str]] is [option string]; Python truthiness of such a value is
      [truthy] ([None] and the empty string are falsy).
    - A property is a computation over the instance: it receives [self] and
      returns an outcome (a raised exception or a value) together with the
      instance after the call, so that what a call does to the fields can be
      stated.
    - [raise ValueError(msg)] is the outcome [inl (ValueError msg)]. *)

From Stdlib Require Import String Ascii List Bool Arith Lia.
Import ListNotations.
Open Scope string_scope.

Set Implicit Arguments.

(** ** Python values and string formatting *)

Module Py.

(** Truth value of an [Optional[str]] in a condition. *)
Definition truthy (v : option string) : bool :=
  match v with
  | None => false
  | Some EmptyString => false
  | Some (String _ _) => true
  end.

(** [format(v, "")], the text a replacement field [{v}] of an f-string
    produces: a string is inserted as it is, [None] as its name. *)
Definition format (v : option string) : string :=
  match v with
  | None => "None"
  | Some s => s
  end.

(** [x == y] between an [Optional[str]] and a string. *)
Definition eqb (x : option string) (y : string) : bool :=
  match x with
  | None => false
  | Some s => String.eqb s y
  end.

(** [x in l] for a list of strings: some element equals [x]. *)
Definition contains (l : list string) (x : option string) : bool :=
  existsb (eqb x) l.

Definition quote : ascii := Ascii.ascii_of_nat 39.
Definition dquote : ascii := Ascii.ascii_of_nat 34.
Definition backslash : ascii := Ascii.ascii_of_nat 92.

Fixpoint mem_char (c : ascii) (s : string) : bool :=
  match s with
  | EmptyString => false
  | String d r => Ascii.eqb c d || mem_char c r
  end.

Definition hex_digit (n : nat) : ascii :=
  if Nat.ltb n 10 then Ascii.ascii_of_nat (48 + n) else Ascii.ascii_of_nat (87 + n).

(** One character of [repr(str)] inside the delimiter [q].  Bytes from 128
    up are the UTF-8 encoding of printable text and are kept. *)
Definition repr_char (q c : ascii) : string :=
  let n := Ascii.nat_of_ascii c in
  if Ascii.eqb c backslash then String backslash (String backslash EmptyString)
  else if Ascii.eqb c q then String backslash (String q EmptyString)
  else if Nat.eqb n 9 then String backslash "t"
  else if Nat.eqb n 10 then String backslash "n"
  else if Nat.eqb n 13 then String backslash "r"
  else if Nat.ltb n 32 || Nat.eqb n 127 then
    String backslash
      (String "x" (String (hex_digit (n / 16)) (String (hex_digit (n mod 16)) EmptyString)))
  else String c EmptyString.

Fixpoint repr_body (q : ascii) (s : string) : string :=
  match s with
  | EmptyString => EmptyString
  | String c r => repr_char q c ++ repr_body q r
  end.

(** [repr(s)] of a string: single quotes, unless the text has a single
    quote and no double quote. *)
Definition repr_str (s : string) : string :=
  let q := if mem_char quote s && negb (mem_char dquote s) then dquote else quote in
  String q (repr_body q s ++ String q EmptyString).

(** [format(l, "")] of a list of strings, which is [repr(l)]. *)
Definition format_list (l : list string) : string :=
  "[" ++ String.concat ", " (map repr_str l) ++ "]".

End Py.

(** ** Exceptions and the computation type *)

Inductive exn : Type :=
| ValueError (msg : string).

(** The instance: the four attributes assigned by [__init__]. *)
Record YandexGPTConfigManagerBase : Type := mkConfig {
  model_type : option string;
  catalog_id : option string;
  iam_token : option string;
  api_key : option string
}.

(** A method body: reads and writes [self], returns or raises. *)
Definition Method (A : Type) : Type :=
  YandexGPTConfigManagerBase -> (exn + A) * YandexGPTConfigManagerBase.

Definition ret {A} (a : A) : Method A := fun self => (inr a, self).

Definition raise {A} (e : exn) : Method A := fun self => (inl e, self).

Definition bind {A B} (m : Method A) (k : A -> Method B) : Method B :=
  fun self =>
    match m self with
    | (inl e, self') => (inl e, self')
    | (inr a, self') => k a self'
    end.

(** [self.attr] *)
Definition getattr {A} (attr : YandexGPTConfigManagerBase -> A) : Method A :=
  fun self => (inr (attr self), self).

(** [self.attr = v], the attribute given by its update function. *)
Definition setattr (upd : YandexGPTConfigManagerBase -> YandexGPTConfigManagerBase)
  : Method unit :=
  fun self => (inr tt, upd self).

Notation "x <- m ;; k" := (bind m (fun x => k))
  (at level 61, m at next level, right associativity).
Notation "m ;; k" := (bind m (fun _ => k))
  (at level 61, right associativity).

(** The two halves of a finished call. *)
Definition outcome {A} (r : (exn + A) * YandexGPTConfigManagerBase) : exn + A :=
  fst r.
Definition after {A} (r : (exn + A) * YandexGPTConfigManagerBase)
  : YandexGPTConfigManagerBase := snd r.

Definition set_model_type (v : option string) (s : YandexGPTConfigManagerBase)
  : YandexGPTConfigManagerBase :=
  mkConfig v (catalog_id s) (iam_token s) (api_key s).
Definition set_catalog_id (v : option string) (s : YandexGPTConfigManagerBase)
  : YandexGPTConfigManagerBase :=
  mkConfig (model_type s) v (iam_token s) (api_key s).
Definition set_iam_token (v : option string) (s : YandexGPTConfigManagerBase)
  : YandexGPTConfigManagerBase :=
  mkConfig (model_type s) (catalog_id s) v (api_key s).
Definition set_api_key (v : option string) (s : YandexGPTConfigManagerBase)
  : YandexGPTConfigManagerBase :=
  mkConfig (model_type s) (catalog_id s) (iam_token s) v.

(** ** The module *)

(** The module-level list the model URI property consults; nothing in the
    module rebinds or mutates it. *)
Definition available_models : list string :=
  ["yandexgpt"; "yandexgpt-lite"; "summarization"].

(** [__init__(self, model_type, catalog_id, iam_token, api_key)]: four
    assignments to the instance being initialised. *)
Definition __init__ (model_type' catalog_id' iam_token' api_key' : option string)
  : Method unit :=
  setattr (set_model_type model_type') ;;
  setattr (set_catalog_id catalog_id') ;;
  setattr (set_iam_token iam_token') ;;
  setattr (set_api_key api_key').

Definition completion_request_authorization_field : Method string :=
  c1 <- getattr iam_token ;;
  if Py.truthy c1 then
    t <- getattr iam_token ;;
    ret ("Bearer " ++ Py.format t)
  else
    c2 <- getattr api_key ;;
    if Py.truthy c2 then
      k <- getattr api_key ;;
      ret ("Api-Key " ++ Py.format k)
    else
      raise (ValueError "IAM token or API key is not set").

(** The body returns the attribute itself, so the value returned is an
    [Optional[str]] as stored. *)
Definition completion_request_catalog_id_field : Method (option string) :=
  c <- getattr catalog_id ;;
  if Py.truthy c then
    v <- getattr catalog_id ;;
    ret v
  else
    raise (ValueError "Catalog ID is not set").

Definition completion_request_model_type_uri_field : Method string :=
  m <- getattr model_type ;;
  if negb (Py.contains available_models m) then
    m' <- getattr model_type ;;
    raise (ValueError ("Model type " ++ Py.format m'
                       ++ " is not supported. Supported values: "
                       ++ Py.format_list available_models))
  else
    c1 <- getattr model_type ;;
    c2 <- (if Py.truthy c1 then getattr catalog_id else ret c1) ;;
    if Py.truthy c2 then
      c <- getattr catalog_id ;;
      t <- getattr model_type ;;
      ret ("gpt://" ++ Py.format c ++ "/" ++ Py.format t ++ "/latest")
    else
      raise (ValueError "Model type or catalog ID is not set").

(** ** Specification vocabulary *)

(** A field that is unset ([None]) or set to the empty string. *)
Definition unset_or_empty (v : option string) : Prop :=
  v = None \/ v = Some "".

(** [msg] has [part] as a contiguous piece. *)
Definition mentions (msg part : string) : Prop :=
  exists pre post, msg = pre ++ part ++ post.

(** The text of the error raised for a model type outside the list. *)
Definition unsupported_message (m : option string) : string :=
  "Model type " ++ Py.format m ++ " is not supported. Supported values: "
  ++ "['yandexgpt', 'yandexgpt-lite', 'summarization']".

(** What a client does with an instance: read one of the three properties,
    or assign one of the four fields. *)
Inductive property : Type :=
| AuthorizationField
| CatalogIdField
| ModelUriField.

Inductive attribute : Type :=
| ModelType
| CatalogId
| IamToken
| ApiKey.

Inductive action : Type :=
| Read (p : property)
| Assign (f : attribute) (v : option string).

(** The instance after a property has been read. *)
Definition after_read (p : property) (self : YandexGPTConfigManagerBase)
  : YandexGPTConfigManagerBase :=
  match p with
  | AuthorizationField => after (completion_request_authorization_field self)
  | CatalogIdField => after (completion_request_catalog_id_field self)
  | ModelUriField => after (completion_request_model_type_uri_field self)
  end.

Definition assign (f : attribute) (v : option string)
  : YandexGPTConfigManagerBase -> YandexGPTConfigManagerBase :=
  match f with
  | ModelType => set_model_type v
  | CatalogId => set_catalog_id v
  | IamToken => set_iam_token v
  | ApiKey => set_api_key v
  end.

Definition perform (self : YandexGPTConfigManagerBase) (a : action)
  : YandexGPTConfigManagerBase :=
  match a with
  | Read p => after_read p self
  | Assign f v => after (setattr (assign f v) self)
  end.

Definition perform_all (l : list action) (self : YandexGPTConfigManagerBase)
  : YandexGPTConfigManagerBase :=
  fold_left perform l self.

Definition is_assignment (a : action) : bool :=
  match a with
  | Read _ => false
  | Assign _ _ => true
  end.

(** ** Strings *)

Lemma append_assoc (a b c : string) : (a ++ b) ++ c = a ++ (b ++ c).
Proof.
  induction a as [|x a IH]; simpl.
  - reflexivity.
  - now rewrite IH.
Qed.

Lemma length_append (a b : string) :
  String.length (a ++ b) = String.length a + String.length b.
Proof.
  induction a as [|x a IH]; simpl; [reflexivity | now rewrite IH].
Qed.

Lemma mentions_between (pre part post : string) :
  mentions (pre ++ part ++ post) part.
Proof. now exists pre, post. Qed.

Lemma mentions_extend_left (pre msg part : string) :
  mentions msg part -> mentions (pre ++ msg) part.
Proof.
  intros (u & v & ->). exists (pre ++ u), v. now rewrite append_assoc.
Qed.

(** ** Truthiness and membership *)

Lemma truthy_true_iff (v : option string) :
  Py.truthy v = true <-> exists s, v = Some s /\ s <> "".
Proof.
  split.
  - destruct v as [[|c r]|]; simpl; try discriminate.
    intros _. exists (String c r). split; [reflexivity | discriminate].
  - intros (s & -> & Hs). destruct s; [now elim Hs | reflexivity].
Qed.

Lemma truthy_false_iff (v : option string) :
  Py.truthy v = false <-> unset_or_empty v.
Proof.
  unfold unset_or_empty. split.
  - destruct v as [[|c r]|]; simpl; auto; discriminate.
  - intros [-> | ->]; reflexivity.
Qed.

Lemma truthy_nonempty (s : string) : s <> "" -> Py.truthy (Some s) = true.
Proof. intros Hs. apply truthy_true_iff. now exists s. Qed.

Lemma contains_true_iff (l : list string) (x : option string) :
  Py.contains l x = true <-> exists s, x = Some s /\ In s l.
Proof.
  unfold Py.contains. rewrite existsb_exists. split.
  - intros (y & Hin & Heq). destruct x as [s|]; simpl in Heq; [|discriminate].
    apply String.eqb_eq in Heq. subst y. now exists s.
  - intros (s & -> & Hin). exists s. split; [assumption|].
    simpl. apply String.eqb_refl.
Qed.

Lemma contains_false_iff (l : list string) (x : option string) :
  Py.contains l x = false <-> forall s, x = Some s -> ~ In s l.
Proof.
  rewrite <- not_true_iff_false, contains_true_iff. split.
  - intros H s Hx Hin. apply H. now exists s.
  - intros H (s & Hx & Hin). exact (H s Hx Hin).
Qed.

Lemma available_models_nonempty : Forall (fun m => m <> "") available_models.
Proof. repeat constructor; discriminate. Qed.

Lemma in_available_truthy (m : string) :
  In m available_models -> Py.truthy (Some m) = true.
Proof.
  intros Hin. apply truthy_nonempty.
  exact (proj1 (Forall_forall _ _) available_models_nonempty m Hin).
Qed.

Example format_list_available_models :
  Py.format_list available_models
  = "['yandexgpt', 'yandexgpt-lite', 'summarization']".
Proof. reflexivity. Qed.

(** The message the source builds is the text above. *)
Lemma unsupported_message_eq (m : option string) :
  "Model type " ++ Py.format m ++ " is not supported. Supported values: "
  ++ Py.format_list available_models = unsupported_message m.
Proof. reflexivity. Qed.

(** ** Running a property *)

Ltac step := cbn [model_type catalog_id iam_token api_key].

Ltac run :=
  unfold completion_request_authorization_field,
         completion_request_catalog_id_field,
         completion_request_model_type_uri_field,
         __init__, bind, getattr, setattr, ret, raise;
  step.

(** The model-type property in terms of its two tests. *)
Lemma model_type_uri_field_cases (self : YandexGPTConfigManagerBase) :
  completion_request_model_type_uri_field self =
  if Py.contains available_models (model_type self) then
    if Py.truthy (model_type self) && Py.truthy (catalog_id self) then
      (inr ("gpt://" ++ Py.format (catalog_id self) ++ "/"
            ++ Py.format (model_type self) ++ "/latest"), self)
    else (inl (ValueError "Model type or catalog ID is not set"), self)
  else (inl (ValueError (unsupported_message (model_type self))), self).
Proof.
  unfold completion_request_model_type_uri_field, bind, getattr, ret, raise.
  destruct (Py.contains available_models (model_type self)); cbn [negb].
  - destruct (Py.truthy (model_type self)) eqn:Hm; cbn [andb].
    + destruct (Py.truthy (catalog_id self)); reflexivity.
    + rewrite Hm. reflexivity.
  - reflexivity.
Qed.

Lemma not_set_is_not_unsupported (m : option string) :
  "Model type or catalog ID is not set" <> unsupported_message m.
Proof.
  unfold unsupported_message. simpl. intros H.
  injection H as H.
  apply (f_equal String.length) in H.
  rewrite length_append in H. simpl in H. lia.
Qed.

(** ** Authorization field *)

(** C1: when [iam_token] is a non-empty string the authorization field is
    ["Bearer "] followed by the token, whatever [api_key] is, and the
    instance is as before. *)
Theorem authorization_field_bearer
  (m c a : option string) (token : string) :
  token <> "" ->
  completion_request_authorization_field (mkConfig m c (Some token) a)
  = (inr ("Bearer " ++ token), mkConfig m c (Some token) a).
Proof.
  intros Ht. run. rewrite (truthy_nonempty Ht). reflexivity.
Qed.

Lemma authorization_field_bearer_witness :
  "t1.9euAB" <> "" /\
  completion_request_authorization_field
    (mkConfig None None (Some "t1.9euAB") (Some "AQVN"))
  = (inr "Bearer t1.9euAB", mkConfig None None (Some "t1.9euAB") (Some "AQVN")).
Proof.
  split; [discriminate|].
  apply (@authorization_field_bearer None None (Some "AQVN") "t1.9euAB").
  discriminate.
Defined.

(** C2: when [iam_token] is unset or empty and [api_key] is a non-empty
    string the authorization field is ["Api-Key "] followed by the key. *)
Theorem authorization_field_api_key
  (m c i : option string) (key : string) :
  unset_or_empty i ->
  key <> "" ->
  completion_request_authorization_field (mkConfig m c i (Some key))
  = (inr ("Api-Key " ++ key), mkConfig m c i (Some key)).
Proof.
  intros Hi Hk. run.
  rewrite (proj2 (truthy_false_iff i) Hi). step.
  rewrite (truthy_nonempty Hk). reflexivity.
Qed.

Lemma authorization_field_api_key_witness :
  unset_or_empty (Some "") /\ "AQVN" <> "" /\
  completion_request_authorization_field
    (mkConfig None None (Some "") (Some "AQVN"))
  = (inr "Api-Key AQVN", mkConfig None None (Some "") (Some "AQVN")).
Proof.
  split; [right; reflexivity|]. split; [discriminate|].
  apply (@authorization_field_api_key None None (Some "") "AQVN").
  - right; reflexivity.
  - discriminate.
Defined.

(** C3: the authorization field raises exactly when both [iam_token] and
    [api_key] are unset or empty, the exception being the [ValueError] of the
    last branch; in every other configuration it returns a string. *)
Theorem authorization_field_raises_iff (self : YandexGPTConfigManagerBase) :
  let both_unset :=
    unset_or_empty (iam_token self) /\ unset_or_empty (api_key self) in
  let r := outcome (completion_request_authorization_field self) in
  ((exists e, r = inl e) <-> both_unset) /\
  (both_unset -> r = inl (ValueError "IAM token or API key is not set")) /\
  (~ both_unset -> exists s, r = inr s).
Proof.
  destruct self as [m c i a]. cbv zeta. step.
  rewrite <- !truthy_false_iff. run. unfold outcome.
  destruct (Py.truthy i); step; [|destruct (Py.truthy a); step];
    cbn [fst]; (split; [split|split]).
  all: try (intros (e & He); discriminate He).
  all: try (intros (Hi & Ha); discriminate).
  all: try (intros _; eexists; reflexivity).
  intros H. elim H. now split.
Qed.

(** ** Catalog id field *)

(** C4: the catalog-id field raises [ValueError] when [catalog_id] is unset
    or empty, and otherwise returns the stored string itself. *)
Theorem catalog_id_field_spec (self : YandexGPTConfigManagerBase) :
  (unset_or_empty (catalog_id self) ->
   completion_request_catalog_id_field self
   = (inl (ValueError "Catalog ID is not set"), self)) /\
  (forall c, catalog_id self = Some c -> c <> "" ->
   completion_request_catalog_id_field self = (inr (Some c), self)).
Proof.
  split.
  - intros H. run. now rewrite (proj2 (truthy_false_iff _) H).
  - intros c Hc Hne. run. rewrite Hc, (truthy_nonempty Hne). step.
    now rewrite Hc.
Qed.

Lemma catalog_id_field_examples :
  completion_request_catalog_id_field (mkConfig None (Some "b1gcat") None None)
  = (inr (Some "b1gcat"), mkConfig None (Some "b1gcat") None None)
  /\ outcome (completion_request_catalog_id_field (mkConfig None (Some "") None None))
     = inl (ValueError "Catalog ID is not set").
Proof. split; reflexivity. Qed.

(** ** Model URI field *)

Lemma unsupported_message_mentions_value (m : option string) :
  mentions (unsupported_message m) (Py.format m).
Proof. apply mentions_between. Qed.

Lemma unsupported_message_mentions_list (m : option string) :
  mentions (unsupported_message m) (Py.format_list available_models).
Proof.
  unfold unsupported_message.
  apply mentions_extend_left, mentions_extend_left.
  exists " is not supported. Supported values: ", "". reflexivity.
Qed.

Lemma unsupported_message_mentions_models (m : option string) :
  Forall (mentions (unsupported_message m)) available_models.
Proof.
  unfold unsupported_message.
  repeat constructor; do 2 apply mentions_extend_left.
  - exists " is not supported. Supported values: ['",
           "', 'yandexgpt-lite', 'summarization']". reflexivity.
  - exists " is not supported. Supported values: ['yandexgpt', '",
           "', 'summarization']". reflexivity.
  - exists " is not supported. Supported values: ['yandexgpt', 'yandexgpt-lite', '",
           "']". reflexivity.
Qed.

(** C5: a [model_type] outside the list of available models, [None]
    included, makes the model URI field raise [ValueError] whatever
    [catalog_id] is; the message contains the rejected value as an f-string
    prints it, the printed list, and so each model name. *)
Theorem model_type_uri_field_unsupported (self : YandexGPTConfigManagerBase) :
  (forall s, model_type self = Some s -> ~ In s available_models) ->
  let msg := unsupported_message (model_type self) in
  completion_request_model_type_uri_field self = (inl (ValueError msg), self)
  /\ mentions msg (Py.format (model_type self))
  /\ mentions msg (Py.format_list available_models)
  /\ Forall (mentions msg) available_models.
Proof.
  intros Hout msg. split.
  - rewrite model_type_uri_field_cases.
    now rewrite (proj2 (contains_false_iff _ _) Hout).
  - split; [apply unsupported_message_mentions_value|].
    split; [apply unsupported_message_mentions_list|].
    apply unsupported_message_mentions_models.
Qed.

Lemma model_type_uri_field_unsupported_witness :
  (forall s, Some "unknown" = Some s -> ~ In s available_models) /\
  completion_request_model_type_uri_field
    (mkConfig (Some "unknown") (Some "cat123") None None)
  = (inl (ValueError
            "Model type unknown is not supported. Supported values: ['yandexgpt', 'yandexgpt-lite', 'summarization']"),
     mkConfig (Some "unknown") (Some "cat123") None None)
  /\ mentions
       "Model type unknown is not supported. Supported values: ['yandexgpt', 'yandexgpt-lite', 'summarization']"
       "unknown".
Proof.
  assert (Hout : forall s, Some "unknown" = Some s -> ~ In s available_models).
  { intros s [= <-]. simpl. intuition discriminate. }
  split; [exact Hout|].
  destruct (@model_type_uri_field_unsupported
              (mkConfig (Some "unknown") (Some "cat123") None None) Hout)
    as (Hrun & Hval & _).
  split; [exact Hrun | exact Hval].
Defined.

(** C6: with [model_type] among the available models and a non-empty
    [catalog_id] the model URI field is
    ["gpt://" + catalog_id + "/" + model_type + "/latest"]. *)
Theorem model_type_uri_field_formats
  (i a : option string) (model catalog : string) :
  In model available_models ->
  catalog <> "" ->
  completion_request_model_type_uri_field
    (mkConfig (Some model) (Some catalog) i a)
  = (inr ("gpt://" ++ catalog ++ "/" ++ model ++ "/latest"),
     mkConfig (Some model) (Some catalog) i a).
Proof.
  intros Hin Hc. rewrite model_type_uri_field_cases. step.
  rewrite (proj2 (contains_true_iff _ _)) by now exists model.
  now rewrite (in_available_truthy Hin), (truthy_nonempty Hc).
Qed.

Lemma model_type_uri_field_formats_witness :
  In "yandexgpt" available_models /\ "cat123" <> "" /\
  completion_request_model_type_uri_field
    (mkConfig (Some "yandexgpt") (Some "cat123") None None)
  = (inr "gpt://cat123/yandexgpt/latest",
     mkConfig (Some "yandexgpt") (Some "cat123") None None).
Proof.
  split; [left; reflexivity|]. split; [discriminate|].
  apply (@model_type_uri_field_formats None None "yandexgpt" "cat123").
  - left; reflexivity.
  - discriminate.
Defined.

(** C7: with [model_type] among the available models and [catalog_id]
    unset or empty the model URI field raises [ValueError]. *)
Theorem model_type_uri_field_no_catalog
  (c i a : option string) (model : string) :
  In model available_models ->
  unset_or_empty c ->
  completion_request_model_type_uri_field (mkConfig (Some model) c i a)
  = (inl (ValueError "Model type or catalog ID is not set"),
     mkConfig (Some model) c i a).
Proof.
  intros Hin Hc. rewrite model_type_uri_field_cases. step.
  rewrite (proj2 (contains_true_iff _ _)) by now exists model.
  now rewrite (in_available_truthy Hin), (proj2 (truthy_false_iff _) Hc).
Qed.

Lemma model_type_uri_field_no_catalog_witness :
  In "summarization" available_models /\ unset_or_empty None /\
  completion_request_model_type_uri_field
    (mkConfig (Some "summarization") None (Some "t1.9euAB") None)
  = (inl (ValueError "Model type or catalog ID is not set"),
     mkConfig (Some "summarization") None (Some "t1.9euAB") None).
Proof.
  split; [right; right; left; reflexivity|]. split; [left; reflexivity|].
  apply (@model_type_uri_field_no_catalog None (Some "t1.9euAB") None "summarization").
  - right; right; left; reflexivity.
  - left; reflexivity.
Defined.

(** ** Construction *)

(** C8: [__init__] never raises and checks nothing: for any four optional
    strings, and whatever the instance held before, it ends with each of the
    four fields equal to the matching argument. *)
Theorem init_stores_arguments
  (m c i a : option string) (fresh : YandexGPTConfigManagerBase) :
  __init__ m c i a fresh = (inr tt, mkConfig m c i a)
  /\ model_type (after (__init__ m c i a fresh)) = m
  /\ catalog_id (after (__init__ m c i a fresh)) = c
  /\ iam_token (after (__init__ m c i a fresh)) = i
  /\ api_key (after (__init__ m c i a fresh)) = a.
Proof. repeat split. Qed.

(** ** Reads leave the instance alone *)

Lemma authorization_field_frame (self : YandexGPTConfigManagerBase) :
  after (completion_request_authorization_field self) = self.
Proof.
  run. destruct (Py.truthy (iam_token self)); [reflexivity|].
  destruct (Py.truthy (api_key self)); reflexivity.
Qed.

Lemma catalog_id_field_frame (self : YandexGPTConfigManagerBase) :
  after (completion_request_catalog_id_field self) = self.
Proof. run. destruct (Py.truthy (catalog_id self)); reflexivity. Qed.

Lemma model_type_uri_field_frame (self : YandexGPTConfigManagerBase) :
  after (completion_request_model_type_uri_field self) = self.
Proof.
  rewrite model_type_uri_field_cases.
  destruct (Py.contains _ _); [|reflexivity].
  destruct (_ && _); reflexivity.
Qed.

Lemma after_read_frame (p : property) (self : YandexGPTConfigManagerBase) :
  after_read p self = self.
Proof.
  destruct p; simpl.
  - apply authorization_field_frame.
  - apply catalog_id_field_frame.
  - apply model_type_uri_field_frame.
Qed.

Lemma perform_all_assignments (l : list action) :
  forall self,
    perform_all l self = perform_all (filter is_assignment l) self.
Proof.
  unfold perform_all. induction l as [|a l IH]; intros self.
  - reflexivity.
  - destruct a as [p|f v]; simpl.
    + rewrite after_read_frame. apply IH.
    + apply IH.
Qed.

(** C9: reading any of the three properties leaves the four fields as they
    were, whether the read returns or raises; nothing is remembered between
    reads, so after any sequence of reads and assignments the instance, and
    with it the result of the next read, is what the assignments alone
    produce. *)
Theorem reads_have_no_effect
  (self : YandexGPTConfigManagerBase) (history : list action) :
  after (completion_request_authorization_field self) = self
  /\ after (completion_request_catalog_id_field self) = self
  /\ after (completion_request_model_type_uri_field self) = self
  /\ perform_all history self
     = perform_all (filter is_assignment history) self
  /\ (let now := perform_all history self in
      let expected := perform_all (filter is_assignment history) self in
      outcome (completion_request_authorization_field now)
      = outcome (completion_request_authorization_field expected)
      /\ outcome (completion_request_catalog_id_field now)
         = outcome (completion_request_catalog_id_field expected)
      /\ outcome (completion_request_model_type_uri_field now)
         = outcome (completion_request_model_type_uri_field expected)).
Proof.
  split; [apply authorization_field_frame|].
  split; [apply catalog_id_field_frame|].
  split; [apply model_type_uri_field_frame|].
  split; [apply perform_all_assignments|].
  cbv zeta. rewrite <- perform_all_assignments. repeat split.
Qed.

Example read_after_assignment :
  let self := mkConfig None None (Some "t1.9euAB") None in
  let history :=
    [Read AuthorizationField; Assign IamToken None; Read ModelUriField;
     Assign ApiKey (Some "AQVN"); Read CatalogIdField] in
  outcome (completion_request_authorization_field self)
  = inr "Bearer t1.9euAB"
  /\ perform_all history self = mkConfig None None None (Some "AQVN")
  /\ outcome (completion_request_authorization_field (perform_all history self))
     = inr "Api-Key AQVN".
Proof. repeat split. Qed.

(** ** Order of the checks in the model URI field *)

Lemma unset_or_empty_not_available (v : option string) :
  unset_or_empty v -> Py.contains available_models v = false.
Proof. intros [-> | ->]; reflexivity. Qed.

(** C10: the membership test comes first, so an unset or empty
    [model_type] raises the unsupported-model error with the printed list;
    the "not set" error is raised exactly when [model_type] is one of the
    available models and [catalog_id] is unset or empty, no available model
    being the empty string. *)
Theorem model_type_uri_field_check_order (self : YandexGPTConfigManagerBase) :
  let r := outcome (completion_request_model_type_uri_field self) in
  (unset_or_empty (model_type self) ->
   r = inl (ValueError (unsupported_message (model_type self)))
   /\ mentions (unsupported_message (model_type self))
               (Py.format_list available_models))
  /\ (r = inl (ValueError "Model type or catalog ID is not set")
      <-> (exists s, model_type self = Some s /\ In s available_models)
          /\ unset_or_empty (catalog_id self))
  /\ Forall (fun s => s <> "") available_models.
Proof.
  cbv zeta. unfold outcome. rewrite model_type_uri_field_cases.
  split; [|split; [|exact available_models_nonempty]].
  - intros Hm. rewrite (unset_or_empty_not_available Hm).
    split; [reflexivity | apply unsupported_message_mentions_list].
  - rewrite <- contains_true_iff, <- truthy_false_iff.
    destruct (Py.contains available_models (model_type self)) eqn:Hin.
    + apply contains_true_iff in Hin. destruct Hin as (s & Hs & Hin).
      rewrite Hs, (in_available_truthy Hin). cbn [andb].
      destruct (Py.truthy (catalog_id self)); cbn [fst]; split.
      * discriminate.
      * intros (_ & H). discriminate.
      * auto.
      * reflexivity.
    + cbn [fst]. split.
      * intros H. elim (@not_set_is_not_unsupported (model_type self)).
        congruence.
      * intros (H & _). discriminate.
Qed.

Example model_type_uri_field_empty_model_type :
  outcome (completion_request_model_type_uri_field
             (mkConfig (Some "") (Some "cat123") None None))
  = inl (ValueError
           "Model type  is not supported. Supported values: ['yandexgpt', 'yandexgpt-lite', 'summarization']")
  /\ outcome (completion_request_model_type_uri_field
                (mkConfig None None None None))
     = inl (ValueError
              "Model type None is not supported. Supported values: ['yandexgpt', 'yandexgpt-lite', 'summarization']").
Proof. split; reflexivity. Qed.

(** ** Further properties of the three fields *)

(** The other two properties in terms of their tests. *)
Lemma authorization_field_cases (self : YandexGPTConfigManagerBase) :
  completion_request_authorization_field self =
  if Py.truthy (iam_token self) then
    (inr ("Bearer " ++ Py.format (iam_token self)), self)
  else if Py.truthy (api_key self) then
    (inr ("Api-Key " ++ Py.format (api_key self)), self)
  else (inl (ValueError "IAM token or API key is not set"), self).
Proof.
  unfold completion_request_authorization_field, bind, getattr, ret, raise.
  destruct (Py.truthy (iam_token self)); [reflexivity|].
  destruct (Py.truthy (api_key self)); reflexivity.
Qed.

Lemma catalog_id_field_cases (self : YandexGPTConfigManagerBase) :
  completion_request_catalog_id_field self =
  if Py.truthy (catalog_id self) then (inr (catalog_id self), self)
  else (inl (ValueError "Catalog ID is not set"), self).
Proof.
  unfold completion_request_catalog_id_field, bind, getattr, ret, raise.
  destruct (Py.truthy (catalog_id self)); reflexivity.
Qed.

(** Strings seen from their end, to compare suffixes. *)
Lemma chars_append (a b : string) :
  list_ascii_of_string (a ++ b)
  = (list_ascii_of_string a ++ list_ascii_of_string b)%list.
Proof.
  induction a as [|x a IH]; simpl; [reflexivity | now rewrite IH].
Qed.

Lemma rev_chars_append (a b : string) :
  rev (list_ascii_of_string (a ++ b))
  = (rev (list_ascii_of_string b) ++ rev (list_ascii_of_string a))%list.
Proof. now rewrite chars_append, rev_app_distr. Qed.

Lemma rev_chars_inj (a b : string) :
  rev (list_ascii_of_string a) = rev (list_ascii_of_string b) -> a = b.
Proof.
  intros H. apply (f_equal (@rev ascii)) in H. rewrite !rev_involutive in H.
  apply (f_equal string_of_list_ascii) in H.
  now rewrite !string_of_list_ascii_of_string in H.
Qed.

(** No available model name is the tail of another behind a slash, so the
    path of a model URI splits in one way only. *)
Lemma uri_path_splits_once (c1 c2 m1 m2 : string) :
  In m1 available_models ->
  In m2 available_models ->
  c1 ++ "/" ++ m1 ++ "/latest" = c2 ++ "/" ++ m2 ++ "/latest" ->
  c1 = c2 /\ m1 = m2.
Proof.
  intros H1 H2 E.
  apply (f_equal (fun s => rev (list_ascii_of_string s))) in E.
  rewrite !rev_chars_append in E.
  simpl in H1, H2.
  destruct H1 as [<- | [<- | [<- | []]]];
    destruct H2 as [<- | [<- | [<- | []]]];
    cbn [list_ascii_of_string rev app append] in E;
    try discriminate E;
    (split; [|reflexivity]);
    injection E as E; now apply rev_chars_inj.
Qed.

(** X1: the model URI field returns exactly when [model_type] is one of the
    available models and [catalog_id] is a non-empty string, and what it
    returns is then the URI built from those two. *)
Theorem model_type_uri_field_returns_iff
  (self : YandexGPTConfigManagerBase) (uri : string) :
  outcome (completion_request_model_type_uri_field self) = inr uri
  <-> exists model catalog,
        model_type self = Some model /\ In model available_models
        /\ catalog_id self = Some catalog /\ catalog <> ""
        /\ uri = "gpt://" ++ catalog ++ "/" ++ model ++ "/latest".
Proof.
  unfold outcome. rewrite model_type_uri_field_cases. split.
  - destruct (Py.contains available_models (model_type self)) eqn:Hin;
      [|discriminate].
    apply contains_true_iff in Hin. destruct Hin as (model & Hm & Hin).
    rewrite Hm, (in_available_truthy Hin). cbn [andb].
    destruct (Py.truthy (catalog_id self)) eqn:Hc; [|discriminate].
    apply truthy_true_iff in Hc. destruct Hc as (catalog & Hc & Hne).
    rewrite Hc. cbn [fst Py.format]. intros [= <-].
    exists model, catalog. repeat split; assumption.
  - intros (model & catalog & Hm & Hin & Hc & Hne & ->).
    rewrite (proj2 (contains_true_iff _ _)) by now exists model.
    rewrite Hm, Hc, (in_available_truthy Hin), (truthy_nonempty Hne).
    reflexivity.
Qed.

(** X2: a model URI comes from one catalog and one model only: two
    instances whose model URI fields return the same string have the same
    [model_type] and the same [catalog_id], slashes in the catalog id
    included. *)
Theorem model_type_uri_field_injective
  (self1 self2 : YandexGPTConfigManagerBase) (uri : string) :
  outcome (completion_request_model_type_uri_field self1) = inr uri ->
  outcome (completion_request_model_type_uri_field self2) = inr uri ->
  model_type self1 = model_type self2 /\ catalog_id self1 = catalog_id self2.
Proof.
  intros H1 H2.
  apply model_type_uri_field_returns_iff in H1, H2.
  destruct H1 as (m1 & c1 & Hm1 & Hin1 & Hc1 & _ & E1).
  destruct H2 as (m2 & c2 & Hm2 & Hin2 & Hc2 & _ & E2).
  rewrite E1 in E2. injection E2 as E2.
  destruct (uri_path_splits_once c1 c2 Hin1 Hin2 E2) as [-> ->].
  now rewrite Hm1, Hm2, Hc1, Hc2.
Qed.

Lemma model_type_uri_field_injective_witness :
  model_type (mkConfig (Some "yandexgpt-lite") (Some "b1g/x") (Some "t") None)
  = model_type (mkConfig (Some "yandexgpt-lite") (Some "b1g/x") None (Some "k"))
  /\ catalog_id (mkConfig (Some "yandexgpt-lite") (Some "b1g/x") (Some "t") None)
     = catalog_id (mkConfig (Some "yandexgpt-lite") (Some "b1g/x") None (Some "k")).
Proof.
  apply (@model_type_uri_field_injective
           (mkConfig (Some "yandexgpt-lite") (Some "b1g/x") (Some "t") None)
           (mkConfig (Some "yandexgpt-lite") (Some "b1g/x") None (Some "k"))
           "gpt://b1g/x/yandexgpt-lite/latest"); reflexivity.
Defined.

(** X3: an authorization header names its credential: two instances whose
    authorization fields return the same string either both used the same
    non-empty [iam_token], or both had no [iam_token] and used the same
    non-empty [api_key]; a bearer header never equals an API-key header. *)
Theorem authorization_field_injective
  (self1 self2 : YandexGPTConfigManagerBase) (header : string) :
  outcome (completion_request_authorization_field self1) = inr header ->
  outcome (completion_request_authorization_field self2) = inr header ->
  (exists token, token <> ""
     /\ iam_token self1 = Some token /\ iam_token self2 = Some token
     /\ header = "Bearer " ++ token)
  \/ (exists key, key <> ""
        /\ unset_or_empty (iam_token self1) /\ unset_or_empty (iam_token self2)
        /\ api_key self1 = Some key /\ api_key self2 = Some key
        /\ header = "Api-Key " ++ key).
Proof.
  unfold outcome. rewrite !authorization_field_cases.
  destruct (Py.truthy (iam_token self1)) eqn:I1;
    [|destruct (Py.truthy (api_key self1)) eqn:A1];
    (destruct (Py.truthy (iam_token self2)) eqn:I2;
      [|destruct (Py.truthy (api_key self2)) eqn:A2]);
    cbn [fst]; intros E1 E2; try discriminate;
    injection E1 as E1; injection E2 as E2; rewrite <- E1 in E2;
    try discriminate E2; injection E2 as E2.
  - apply truthy_true_iff in I1, I2.
    destruct I1 as (t1 & Ht1 & Hne), I2 as (t2 & Ht2 & _).
    rewrite Ht1, Ht2 in E2. cbn [Py.format] in E2. subst t2.
    left. exists t1. rewrite Ht1 in E1. now repeat split.
  - apply truthy_true_iff in A1, A2.
    destruct A1 as (k1 & Hk1 & Hne), A2 as (k2 & Hk2 & _).
    rewrite Hk1, Hk2 in E2. cbn [Py.format] in E2. subst k2.
    apply truthy_false_iff in I1, I2.
    right. exists k1. rewrite Hk1 in E1. now repeat split.
Qed.

Lemma authorization_field_injective_witness :
  (exists token, token <> ""
     /\ iam_token (mkConfig None None (Some "t1.9euAB") (Some "AQVN"))
        = Some token
     /\ iam_token (mkConfig (Some "yandexgpt") None (Some "t1.9euAB") None)
        = Some token
     /\ "Bearer t1.9euAB" = "Bearer " ++ token)
  \/ (exists key, key <> ""
        /\ unset_or_empty
             (iam_token (mkConfig None None (Some "t1.9euAB") (Some "AQVN")))
        /\ unset_or_empty
             (iam_token (mkConfig (Some "yandexgpt") None (Some "t1.9euAB") None))
        /\ api_key (mkConfig None None (Some "t1.9euAB") (Some "AQVN"))
           = Some key
        /\ api_key (mkConfig (Some "yandexgpt") None (Some "t1.9euAB") None)
           = Some key
        /\ "Bearer t1.9euAB" = "Api-Key " ++ key).
Proof.
  apply (@authorization_field_injective
           (mkConfig None None (Some "t1.9euAB") (Some "AQVN"))
           (mkConfig (Some "yandexgpt") None (Some "t1.9euAB") None)
           "Bearer t1.9euAB"); reflexivity.
Defined.

(** X4: the model URI field asks no less than the catalog id field: when
    it returns, the catalog id field returns too and the URI is built around
    that very string; when the catalog id field raises, the model URI field
    raises as well. *)
Theorem model_type_uri_field_needs_catalog_id
  (self : YandexGPTConfigManagerBase) :
  (forall uri,
     outcome (completion_request_model_type_uri_field self) = inr uri ->
     exists catalog model,
       outcome (completion_request_catalog_id_field self) = inr (Some catalog)
       /\ model_type self = Some model
       /\ uri = "gpt://" ++ catalog ++ "/" ++ model ++ "/latest")
  /\ (forall e,
        outcome (completion_request_catalog_id_field self) = inl e ->
        exists e', outcome (completion_request_model_type_uri_field self) = inl e').
Proof.
  split.
  - intros uri H. apply model_type_uri_field_returns_iff in H.
    destruct H as (model & catalog & Hm & _ & Hc & Hne & ->).
    exists catalog, model. split; [|now split].
    unfold outcome. rewrite catalog_id_field_cases, Hc, (truthy_nonempty Hne).
    reflexivity.
  - intros e. unfold outcome.
    rewrite catalog_id_field_cases, model_type_uri_field_cases.
    destruct (Py.truthy (catalog_id self)); [discriminate|]. intros _.
    destruct (Py.contains _ _); [|eexists; reflexivity].
    rewrite andb_false_r. eexists; reflexivity.
Qed.

(** X5: each property looks only at its own fields: assigning [model_type]
    or [catalog_id] never changes what the authorization field gives,
    assigning [model_type] or a credential never changes the catalog id
    field, and assigning a credential never changes the model URI field. *)
Theorem properties_ignore_other_fields
  (self : YandexGPTConfigManagerBase) (v : option string) :
  (outcome (completion_request_authorization_field (set_model_type v self))
   = outcome (completion_request_authorization_field self)
   /\ outcome (completion_request_authorization_field (set_catalog_id v self))
      = outcome (completion_request_authorization_field self))
  /\ (outcome (completion_request_catalog_id_field (set_model_type v self))
      = outcome (completion_request_catalog_id_field self)
      /\ outcome (completion_request_catalog_id_field (set_iam_token v self))
         = outcome (completion_request_catalog_id_field self)
      /\ outcome (completion_request_catalog_id_field (set_api_key v self))
         = outcome (completion_request_catalog_id_field self))
  /\ (outcome (completion_request_model_type_uri_field (set_iam_token v self))
      = outcome (completion_request_model_type_uri_field self)
      /\ outcome (completion_request_model_type_uri_field (set_api_key v self))
         = outcome (completion_request_model_type_uri_field self)).
Proof.
  unfold outcome.
  rewrite !authorization_field_cases, !catalog_id_field_cases,
    !model_type_uri_field_cases.
  destruct self as [m c i a].
  unfold set_model_type, set_catalog_id, set_iam_token, set_api_key. step.
  repeat split.
  - now destruct (Py.truthy i), (Py.truthy a).
  - now destruct (Py.truthy i), (Py.truthy a).
  - now destruct (Py.truthy c).
  - now destruct (Py.truthy c).
  - now destruct (Py.truthy c).
  - now destruct (Py.contains available_models m), (Py.truthy m && Py.truthy c).
  - now destruct (Py.contains available_models m), (Py.truthy m && Py.truthy c).
Qed.
